(** * flask-currency-converter: the [/converter] endpoint of [app.py]

    A shallow embedding of the three functions of [app.py]
    ([convert_currency], [validation_check], [get_conversion_rate]) and
    the properties of the endpoint that follow from them.

    Conventions of the embedding:
    - a Python [str] is the list of its Unicode code points;
    - [request.args] (a werkzeug [ImmutableMultiDict]) is the list of the
      (key, value) pairs of the query string, in order, duplicates kept;
    - a Python [dict] is a finite map from [str] keys;
    - the outbound call [requests.get] is the single effect of the program:
      the handler is a tree with one kind of node, and running it against a
      network yields the list of calls made and either an unhandled
      exception or the value the view returns;
    - the Unicode character database beyond ASCII, IEEE-754 arithmetic and
      the [secrets] module are interfaces (type classes): every property
      holds for each implementation of them. *)

From Stdlib Require Import ZArith NArith String Ascii Bool Lia.
From Stdlib Require Import SpecFloat.
From stdpp Require Import base option list gmap.

Local Set Warnings "-register-all".
Local Open Scope Z_scope.

(** ** Python strings *)

Module PyStr.

Definition pystr : Type := list N.

(** Code point of an ASCII character, and the [str] of an ASCII literal. *)
Definition chr (a : ascii) : N := N_of_ascii a.

Definition py (s : string) : pystr := map chr (list_ascii_of_string s).

Definition is_digit (c : N) : bool := ((48 <=? c) && (c <=? 57))%N.
Definition is_ascii_lower (c : N) : bool := ((97 <=? c) && (c <=? 122))%N.
Definition is_ascii_upper (c : N) : bool := ((65 <=? c) && (c <=? 90))%N.

(** C's [Py_ISSPACE]: space, and \t \n \v \f \r. *)
Definition Py_ISSPACE (c : N) : bool :=
  ((c =? 32) || ((9 <=? c) && (c <=? 13)))%N.

(** C's [Py_TOLOWER], on ASCII only. *)
Definition Py_TOLOWER (c : N) : N :=
  if is_ascii_upper c then (c + 32)%N else c.

(** The part of the Unicode character database the program touches
    through [str.upper] and [float(str)], for code points outside ASCII. *)
Class UnicodeData : Type := {
  (** full uppercase mapping (one code point may map to several) *)
  uc_upper : N -> list N;
  (** [Py_UNICODE_ISSPACE] *)
  uc_isspace : N -> bool;
  (** [Py_UNICODE_TODECIMAL]: the value of a decimal digit *)
  uc_decimal : N -> option N
}.

Section Upper.
Context `{UnicodeData}.

(** [str.upper()] maps every code point through its full uppercase
    mapping, independently of its neighbours. *)
Definition upper_cp (c : N) : list N :=
  if (c <? 128)%N then
    [if is_ascii_lower c then (c - 32)%N else c]
  else uc_upper c.

Definition upper (s : pystr) : pystr := flat_map upper_cp s.
End Upper.

(** Two strings that differ only in the case of their ASCII letters. *)
Definition case_variant (s t : pystr) : Prop :=
  map Py_TOLOWER s = map Py_TOLOWER t.

End PyStr.
Import PyStr.

(** ** Python floats *)

Module PyFloatSyntax.

(** What a string accepted by [float()] denotes, before it is rounded to
    a double: a signed decimal [m * 10^e], an infinity or a NaN. *)
Inductive FloatLit : Type :=
| LitDec (neg : bool) (m : Z) (e : Z)
| LitInf (neg : bool)
| LitNan (neg : bool).

(** [_Py_string_to_number_with_underscores]: an underscore is accepted
    only between two digits, and is dropped. *)
Fixpoint strip_underscores (prev : N) (s : pystr) : option pystr :=
  match s with
  | [] => if (prev =? 95)%N then None else Some []
  | c :: r =>
      if (c =? 95)%N then
        if is_digit prev then strip_underscores c r else None
      else if (prev =? 95)%N && negb (is_digit c) then None
      else cons c <$> strip_underscores c r
  end.

(** [float_from_string_inner]: leading whitespace, then trailing
    whitespace (never the first remaining character). *)
Fixpoint lstrip (s : pystr) : pystr :=
  match s with
  | c :: r => if Py_ISSPACE c then lstrip r else s
  | [] => []
  end.

Fixpoint rstrip_tail (s : pystr) : pystr :=
  match s with
  | [] => []
  | c :: r =>
      match rstrip_tail r with
      | [] => if Py_ISSPACE c then [] else [c]
      | r' => c :: r'
      end
  end.

Definition rstrip_keep_first (s : pystr) : pystr :=
  match s with
  | [] => []
  | c :: r => c :: rstrip_tail r
  end.

Definition split_sign (s : pystr) : bool * pystr :=
  match s with
  | c :: r =>
      if (c =? 45)%N then (true, r)
      else if (c =? 43)%N then (false, r)
      else (false, s)
  | [] => (false, [])
  end.

Fixpoint take_digits (s : pystr) : list N * pystr :=
  match s with
  | c :: r =>
      if is_digit c then
        let '(ds, r') := take_digits r in ((c - 48)%N :: ds, r')
      else ([], s)
  | [] => ([], [])
  end.

Definition digits_value (ds : list N) : Z :=
  fold_left (fun acc d => 10 * acc + Z.of_N d) ds 0.

(** The decimal grammar of [_Py_dg_strtod], on a string that must be
    consumed entirely: digits with an optional point and at least one
    digit, then an optional exponent with at least one digit. *)
Definition parse_decimal (s : pystr) : option (Z * Z) :=
  let '(ip, r1) := take_digits s in
  let '(fp, r2) :=
    match r1 with
    | c :: r => if (c =? 46)%N then take_digits r else ([], r1)
    | [] => ([], [])
    end in
  match ip ++ fp with
  | [] => None
  | ds =>
      let m := digits_value ds in
      let fraclen := Z.of_nat (length fp) in
      match r2 with
      | [] => Some (m, - fraclen)
      | c :: r =>
          if ((c =? 101) || (c =? 69))%N then
            let '(eneg, r3) := split_sign r in
            match take_digits r3 with
            | ((_ :: _) as ed, []) =>
                let e := digits_value ed in
                Some (m, (if eneg then - e else e) - fraclen)
            | _ => None
            end
          else None
      end
  end.

(** [_Py_parse_inf_or_nan], after the sign: "inf", "infinity" or "nan"
    in any letter case. *)
Definition parse_special (neg : bool) (s : pystr) : option FloatLit :=
  let l := map Py_TOLOWER s in
  if bool_decide (l = py "inf") || bool_decide (l = py "infinity")
  then Some (LitInf neg)
  else if bool_decide (l = py "nan") then Some (LitNan neg)
  else None.

Definition parse_stripped (s : pystr) : option FloatLit :=
  let '(neg, r) := split_sign s in
  match parse_decimal r with
  | Some (m, e) => Some (LitDec neg m e)
  | None => parse_special neg r
  end.

Section Parse.
Context `{UnicodeData}.

(** [_PyUnicode_TransformDecimalAndSpaceToASCII]: outside ASCII,
    whitespace becomes a space, a decimal digit its ASCII digit and
    anything else a question mark. *)
Definition to_ascii_cp (c : N) : N :=
  if (c <? 127)%N then c
  else if uc_isspace c then 32%N
  else match uc_decimal c with
       | Some d => (48 + d)%N
       | None => 63%N
       end.

(** The string argument of [float()]: [None] is [ValueError]. *)
Definition parse_float (s : pystr) : option FloatLit :=
  s1 ← strip_underscores 0%N (map to_ascii_cp s);
  match lstrip s1 with
  | [] => None
  | s2 => parse_stripped (rstrip_keep_first s2)
  end.
End Parse.

End PyFloatSyntax.
Import PyFloatSyntax.

(** IEEE-754 doubles as Python uses them. *)
Class PyFloat : Type := {
  float : Type;
  (** correctly rounded value of [m * 10^e], with sign [neg] *)
  float_of_decimal : bool -> Z -> Z -> float;
  float_inf : bool -> float;
  float_nan : bool -> float;
  (** [float(n)] for an [int]; [None] is [OverflowError] *)
  float_of_int : Z -> option float;
  float_mul : float -> float -> float;
  (** [round(x, ndigits)] for [ndigits >= 0] *)
  float_round : float -> Z -> float;
  (** [float(1)] does not overflow *)
  float_of_int_one : float_of_int 1 <> None
}.

Definition float_of_lit `{PyFloat} (l : FloatLit) : float :=
  match l with
  | LitDec neg m e => float_of_decimal neg m e
  | LitInf neg => float_inf neg
  | LitNan neg => float_nan neg
  end.

(** The [secrets] module of the repository, which each deployment writes
    itself: only its one constant is used. *)
Class Secrets : Type := { CURRENCYAPI_APIKEY : pystr }.

(** ** Python values, exceptions and the one effect *)

Inductive Exn : Type :=
| ValueError
| TypeError
| OverflowError
| KeyError (k : pystr)
| JSONDecodeError
| RequestException.

(** [request.args]: the pairs of the query string. *)
Definition MultiDict : Type := list (pystr * pystr).

Section Values.
Context `{PyFloat}.

(** The values the program handles: what [json.loads] produces, and the
    query parameters. *)
Inductive PyVal : Type :=
| PNone
| PBool (b : bool)
| PInt (n : Z)
| PFloat (x : float)
| PStr (s : pystr)
| PList (l : list PyVal)
| PDict (d : gmap pystr PyVal)
| PMultiDict (a : MultiDict).

(** What [requests.get] returns: the status line, and the body as
    [r.json()] decodes it ([None] when the body is not JSON). *)
Record HttpResponse : Type := {
  status_code : Z;
  json_body : option PyVal
}.

(** An outbound call: the URL and the [params] dictionary. *)
Definition HttpCall : Type := (pystr * gmap pystr PyVal)%type.

(** The network: for each call, the exception [requests.get] raises
    (the provider cannot be reached) or the response it returns, whatever
    its status. *)
Definition Network : Type := HttpCall -> Exn + HttpResponse.

(** Programs: return, raise, or call out and continue with the response. *)
Inductive M (A : Type) : Type :=
| Ret (a : A)
| Raise (e : Exn)
| HttpGet (url : pystr) (params : gmap pystr PyVal) (k : HttpResponse -> M A).

Global Arguments Ret {A} a.
Global Arguments Raise {A} e.
Global Arguments HttpGet {A} url params k.

Fixpoint bind {A B} (m : M A) (f : A -> M B) : M B :=
  match m with
  | Ret a => f a
  | Raise e => Raise e
  | HttpGet url params k => HttpGet url params (fun r => bind (k r) f)
  end.

Global Instance M_ret : MRet M := fun A a => Ret a.
Global Instance M_bind : MBind M := fun A B f m => bind m f.

Definition lift {A} (r : Exn + A) : M A :=
  match r with
  | inl e => Raise e
  | inr a => Ret a
  end.

(** Running a program: the calls made, in order, and the outcome. No
    handler of the program catches what [requests.get] raises, so the
    exception ends the run. *)
Fixpoint run {A} (net : Network) (m : M A) : list HttpCall * (Exn + A) :=
  match m with
  | Ret a => ([], inr a)
  | Raise e => ([], inl e)
  | HttpGet url params k =>
      match net (url, params) with
      | inl e => ([(url, params)], inl e)
      | inr r =>
          let '(calls, out) := run net (k r) in
          ((url, params) :: calls, out)
      end
  end.

(** *** Built-ins *)

Context `{UnicodeData}.

(** [float(v)] *)
Definition py_float (v : PyVal) : Exn + float :=
  match v with
  | PFloat x => inr x
  | PInt n =>
      match float_of_int n with
      | Some x => inr x
      | None => inl OverflowError
      end
  | PBool b => inr (float_of_decimal false (if b then 1 else 0) 0)
  | PStr s =>
      match parse_float s with
      | Some l => inr (float_of_lit l)
      | None => inl ValueError
      end
  | PNone | PList _ | PDict _ | PMultiDict _ => inl TypeError
  end.

(** [v * x] for a float [x] *)
Definition py_mul_float (v : PyVal) (x : float) : Exn + float :=
  match v with
  | PFloat r => inr (float_mul r x)
  | PInt n =>
      match float_of_int n with
      | Some r => inr (float_mul r x)
      | None => inl OverflowError
      end
  | PBool b => inr (float_mul (float_of_decimal false (if b then 1 else 0) 0) x)
  | PNone | PStr _ | PList _ | PDict _ | PMultiDict _ => inl TypeError
  end.

(** [args.get(key)]: the first value of the key *)
Fixpoint args_get (args : MultiDict) (key : pystr) : option pystr :=
  match args with
  | [] => None
  | (k, v) :: rest => if bool_decide (k = key) then Some v else args_get rest key
  end.

(** [v[key]] for a string key *)
Definition py_getitem (v : PyVal) (key : pystr) : Exn + PyVal :=
  match v with
  | PDict d =>
      match d !! key with
      | Some x => inr x
      | None => inl (KeyError key)
      end
  | PMultiDict a =>
      match args_get a key with
      | Some s => inr (PStr s)
      | None => inl (KeyError key)
      end
  | PNone | PBool _ | PInt _ | PFloat _ | PStr _ | PList _ => inl TypeError
  end.

(** [r.json()] *)
Definition json (r : HttpResponse) : Exn + PyVal :=
  match json_body r with
  | Some v => inr v
  | None => inl JSONDecodeError
  end.

(** Truth value of [args.get(key)]: a non-empty string. *)
Definition truthy (o : option pystr) : bool :=
  match o with
  | Some (_ :: _) => true
  | _ => false
  end.

(** *** JSON documents *)

(** What the framework's JSON encoder writes for a value. *)
Inductive Json : Type :=
| JNull
| JBool (b : bool)
| JInt (n : Z)
| JFloat (x : float)
| JString (s : pystr)
| JArray (l : list Json)
| JObject (o : gmap pystr Json).

(** [json.dumps]: a dictionary is written member by member; a
    [MultiDict], being a dictionary whose [items()] yields each key once
    with the first of its values, is written as the object of these. *)
Fixpoint to_json (v : PyVal) : Json :=
  match v with
  | PNone => JNull
  | PBool b => JBool b
  | PInt n => JInt n
  | PFloat x => JFloat x
  | PStr s => JString s
  | PList l => JArray (map to_json l)
  | PDict d => JObject (to_json <$> d)
  | PMultiDict a => JObject (JString <$> list_to_map a)
  end.
End Values.

(** ** The program *)

Section Converter.
Context `{UnicodeData} `{PyFloat} `{Secrets}.

(** A dictionary literal (its keys are distinct wherever the program
    writes one). *)
Definition dict (items : list (pystr * PyVal)) : gmap pystr PyVal :=
  list_to_map items.

(** [jsonify(d)]: a JSON response object carrying [d]. *)
Inductive Response : Type :=
| jsonify (d : gmap pystr PyVal).

(** What a view function hands to the framework: a dictionary, which
    the framework serialises with its default status, or a response
    with a status of its own. *)
Inductive ViewResult : Type :=
| ViewDict (d : gmap pystr PyVal)
| ViewTuple (r : Response) (status : Z).

Definition VALID_COUNTRIES : gset pystr :=
  list_to_set [py "USD"; py "GBP"; py "EUR"].

Definition currency_error (user_input : PyVal) : gmap pystr PyVal :=
  dict [ (py "error", PStr (py "Invalid or missing query parameters"));
         (py "notes", PStr (py "Query parameters, base-currency and to-currency, are required. Values must be valid ISO 4217 country codes. Only USD, GBP, and EUR are currently supported."));
         (py "user_input", user_input) ].

Definition amount_error (user_input : PyVal) : gmap pystr PyVal :=
  dict [ (py "error", PStr (py "Invalid amount passed in"));
         (py "notes", PStr (py "Make sure amount is a valid number."));
         (py "user_input", user_input) ].

(** [validation_check]: the returned tuple is [Some (response, status)],
    the empty tuple is [None]; an exception other than the [ValueError]
    the [try] catches propagates. *)
Definition validation_check (base_currency to_currency : pystr)
    (base_amount : PyVal) (user_input : PyVal)
  : Exn + option (Response * Z) :=
  if negb (bool_decide (upper base_currency ∈ VALID_COUNTRIES))
     || negb (bool_decide (upper to_currency ∈ VALID_COUNTRIES))
  then inr (Some (jsonify (currency_error user_input), 400))
  else
    match py_float base_amount with
    | inr _ => inr None
    | inl ValueError => inr (Some (jsonify (amount_error user_input), 400))
    | inl e => inl e
    end.

Definition endpoint : pystr := py "https://api.currencyapi.com/v3/latest".

Definition params (base_currency to_currency : pystr) : gmap pystr PyVal :=
  dict [ (py "apikey", PStr CURRENCYAPI_APIKEY);
         (py "base_currency", PStr (upper base_currency));
         (py "currencies", PList [PStr (upper to_currency)]) ].

(** [r.json()['data'][to_currency.upper()]['value']] *)
Definition read_rate (to_currency : pystr) (r : HttpResponse) : Exn + PyVal :=
  match json r with
  | inl e => inl e
  | inr body =>
      match py_getitem body (py "data") with
      | inl e => inl e
      | inr data =>
          match py_getitem data (upper to_currency) with
          | inl e => inl e
          | inr entry => py_getitem entry (py "value")
          end
      end
  end.

Definition get_conversion_rate (base_currency to_currency : pystr) : M PyVal :=
  r ← HttpGet endpoint (params base_currency to_currency) Ret;
  lift (read_rate to_currency r).

Definition convert_currency (args : MultiDict) : M ViewResult :=
  let base_currency := default [] (args_get args (py "base-currency")) in
  let to_currency := default [] (args_get args (py "to-currency")) in
  let base_amount :=
    match args_get args (py "amount") with
    | Some s => PStr s
    | None => PInt 1
    end in
  validation_response ←
    lift (validation_check base_currency to_currency base_amount (PMultiDict args));
  match validation_response with
  | Some (resp, status) => Ret (ViewTuple resp status)
  | None =>
      conversion_rate ← get_conversion_rate base_currency to_currency;
      let response :=
        dict [ (py "conversion_rate", conversion_rate);
               (py "user_input", PMultiDict args) ] in
      if truthy (args_get args (py "amount")) then
        amount ← lift (py_float base_amount);
        converted_amount ← lift (py_mul_float conversion_rate amount);
        Ret (ViewDict (<[py "converted_amount" :=
                           PFloat (float_round converted_amount 2)]> response))
      else Ret (ViewDict response)
  end.

(** *** What the caller sees *)

(** The dictionary the view hands over for the body. *)
Definition body (v : ViewResult) : gmap pystr PyVal :=
  match v with
  | ViewDict d => d
  | ViewTuple (jsonify d) _ => d
  end.

(** The members of the JSON document sent back. *)
Definition sent_body (v : ViewResult) : gmap pystr Json :=
  to_json <$> body v.

(** The custom status of a view result, if it carries one. *)
Definition custom_status (v : ViewResult) : option Z :=
  match v with
  | ViewDict _ => None
  | ViewTuple _ status => Some status
  end.

(** The status line the framework sends: 200 unless the view gave one,
    and the generic 500 for an exception no handler caught. *)
Definition http_status (out : Exn + ViewResult) : Z :=
  match out with
  | inl _ => 500
  | inr v => default 200 (custom_status v)
  end.

(** The pairs [requests] puts in the query string for a [params]
    value: a string gives one pair, a list one pair per element. *)
Definition param_values (v : PyVal) : list pystr :=
  match v with
  | PStr s => [s]
  | PList l => omap (fun x => match x with PStr s => Some s | _ => None end) l
  | _ => []
  end.

(** The request as validated by [validation_check]: both codes are in
    the allow-list once uppercased. *)
Definition valid_code (s : pystr) : bool :=
  bool_decide (upper s ∈ VALID_COUNTRIES).

Definition base_of (args : MultiDict) : pystr :=
  default [] (args_get args (py "base-currency")).
Definition to_of (args : MultiDict) : pystr :=
  default [] (args_get args (py "to-currency")).

(** *** Notions the properties are stated with *)

(** The value bound to [base_amount]: the first [amount] parameter, or
    the integer 1. *)
Definition amount_arg (args : MultiDict) : PyVal :=
  match args_get args (py "amount") with
  | Some s => PStr s
  | None => PInt 1
  end.

(** A request that [validation_check] lets through. *)
Definition validated (args : MultiDict) : bool :=
  valid_code (base_of args) && valid_code (to_of args)
  && match args_get args (py "amount") with
     | Some s => bool_decide (is_Some (parse_float s))
     | None => true
     end.

(** The one call a validated request makes. *)
Definition rate_call (args : MultiDict) : HttpCall :=
  (endpoint, params (base_of args) (to_of args)).

(** What the handler does with the rate once it has it. *)
Definition respond (args : MultiDict) (conversion_rate : PyVal) : Exn + ViewResult :=
  let response :=
    dict [ (py "conversion_rate", conversion_rate);
           (py "user_input", PMultiDict args) ] in
  if truthy (args_get args (py "amount")) then
    match py_float (amount_arg args) with
    | inl e => inl e
    | inr amount =>
        match py_mul_float conversion_rate amount with
        | inl e => inl e
        | inr converted_amount =>
            inr (ViewDict (<[py "converted_amount" :=
                               PFloat (float_round converted_amount 2)]> response))
        end
    end
  else inr (ViewDict response).

(** The reasons [validation_check] has to reject a currency parameter. *)
Inductive rejected_code : option pystr -> Prop :=
| code_missing : rejected_code None
| code_empty : rejected_code (Some [])
| code_unsupported s : upper s ∉ VALID_COUNTRIES -> rejected_code (Some s).

(** The ways the provider can fail a request for the rate of [t]: the
    call raises, the body is not JSON, or the path data / code / value
    stops at a missing key. The status line is free in all of them. *)
Inductive upstream_failure (t : pystr) : Exn + HttpResponse -> Exn -> Prop :=
| provider_unreachable e :
    upstream_failure t (inl e) e
| body_not_json st :
    upstream_failure t
      (inr {| status_code := st; json_body := None |}) JSONDecodeError
| body_without_data st b :
    b !! py "data" = None ->
    upstream_failure t
      (inr {| status_code := st; json_body := Some (PDict b) |})
      (KeyError (py "data"))
| data_without_code st b d :
    b !! py "data" = Some (PDict d) ->
    d !! upper t = None ->
    upstream_failure t
      (inr {| status_code := st; json_body := Some (PDict b) |})
      (KeyError (upper t))
| code_without_value st b d c :
    b !! py "data" = Some (PDict d) ->
    d !! upper t = Some (PDict c) ->
    c !! py "value" = None ->
    upstream_failure t
      (inr {| status_code := st; json_body := Some (PDict b) |})
      (KeyError (py "value")).

(** A view result with its [user_input] field left out. *)
Definition without_user_input (v : ViewResult) : ViewResult :=
  match v with
  | ViewDict d => ViewDict (delete (py "user_input") d)
  | ViewTuple (jsonify d) status =>
      ViewTuple (jsonify (delete (py "user_input") d)) status
  end.

Definition outcome_without_user_input (out : Exn + ViewResult) : Exn + ViewResult :=
  match out with
  | inl e => inl e
  | inr v => inr (without_user_input v)
  end.

(** An echo that holds exactly the pairs of the query string. *)
Definition exact_echo (args : MultiDict) (o : gmap pystr Json) : Prop :=
  forall k v, (k, v) ∈ args <-> o !! k = Some (JString v).

(** A rate the handler cannot multiply: JSON null, a string, an array
    or an object. *)
Definition non_numeric (v : PyVal) : Prop :=
  match v with
  | PNone | PStr _ | PList _ | PDict _ => True
  | PBool _ | PInt _ | PFloat _ | PMultiDict _ => False
  end.

(** The spellings of the non-finite floats: an optional sign, then inf,
    infinity or nan in any letter case. *)
Definition non_finite_spelling (s : pystr) : Prop :=
  exists sign word,
    s = sign ++ word
    /\ (sign = [] \/ sign = py "+" \/ sign = py "-")
    /\ (map Py_TOLOWER word = py "inf"
        \/ map Py_TOLOWER word = py "infinity"
        \/ map Py_TOLOWER word = py "nan").

End Converter.

(** ** Implementations of the interfaces, to run the program on inputs *)

(** IEEE-754 binary64 on the Standard Library's [spec_float]. *)
Module Binary64.
Definition prec : Z := 53.
Definition emax : Z := 1024.

(** The double nearest to [n / d] (ties to even), for [0 <= n], [0 < d]. *)
Definition of_ratio (neg : bool) (n d : Z) : spec_float :=
  if n =? 0 then S754_zero neg
  else
    let '(q, e, l) := SFdiv_core_binary prec emax n 0 d 0 in
    binary_round_aux prec emax neg q e l.

Definition of_decimal (neg : bool) (m e : Z) : spec_float :=
  if 0 <=? e then of_ratio neg (m * 10 ^ e) 1
  else of_ratio neg m (10 ^ (- e)).

Definition of_int (n : Z) : option spec_float :=
  match binary_normalize prec emax n 0 false with
  | S754_infinity _ => None
  | x => Some x
  end.

(** Nearest integer to [n / d], ties to even. *)
Definition div_half_even (n d : Z) : Z :=
  let q := n / d in
  match (2 * (n mod d) ?= d) with
  | Lt => q
  | Gt => q + 1
  | Eq => if Z.even q then q else q + 1
  end.

(** [round(x, ndigits)]: the exact value of [x] rounded to [ndigits]
    decimals, ties to even, then read back as a double. *)
Definition round (x : spec_float) (ndigits : Z) : spec_float :=
  match x with
  | S754_finite s m e =>
      if 0 <=? e then x
      else of_ratio s (div_half_even (Zpos m * 10 ^ ndigits) (2 ^ (- e)))
                    (10 ^ ndigits)
  | _ => x
  end.

Definition ops : PyFloat := {|
  float := spec_float;
  float_of_decimal := of_decimal;
  float_inf := S754_infinity;
  float_nan := fun _ => S754_nan;
  float_of_int := of_int;
  float_mul := SFmul prec emax;
  float_round := round;
  float_of_int_one := ltac:(vm_compute; discriminate)
|}.
End Binary64.

(** A fragment of the Unicode database: the long s, the sharp s, the
    no-break space and the Arabic-Indic digits; every other code point
    outside ASCII is its own uppercase, no space and no digit. *)
Definition ucd_fragment : UnicodeData := {|
  uc_upper := fun c =>
    if (c =? 383)%N then [83%N]
    else if (c =? 223)%N then [83%N; 83%N]
    else [c];
  uc_isspace := fun c => (c =? 160)%N;
  uc_decimal := fun c =>
    if ((1632 <=? c) && (c <=? 1641))%N then Some (c - 1632)%N else None
|}.

Definition sample_secrets : Secrets := {| CURRENCYAPI_APIKEY := py "k3y" |}.

(** ** Sample requests and providers *)

Module Samples.
#[local] Existing Instance ucd_fragment.
#[local] Existing Instance Binary64.ops.
#[local] Existing Instance sample_secrets.

(** A provider that cannot be reached. *)
Definition net_down : Network := fun _ => inl RequestException.

(** A provider that answers every call with the given status and a body
    holding the rate of one currency. *)
Definition provider (status : Z) (code : pystr) (value : PyVal) : Network :=
  fun _ =>
    inr {| status_code := status;
           json_body :=
             Some (PDict (dict [ (py "data",
               PDict (dict [ (code,
                 PDict (dict [ (py "code", PStr code);
                               (py "value", value) ])) ])) ])) |}.

(** 1.2 as a double. *)
Definition rate_1_2 : PyVal := PFloat (Binary64.of_decimal false 12 (-1)).

Definition q_unsupported : MultiDict :=
  [ (py "base-currency", py "XXX"); (py "to-currency", py "USD") ].
Definition q_bad_amount : MultiDict :=
  [ (py "base-currency", py "GBP"); (py "to-currency", py "USD");
    (py "amount", py "notanumber") ].
Definition q_amount : MultiDict :=
  [ (py "base-currency", py "GBP"); (py "to-currency", py "USD");
    (py "amount", py "123") ].
Definition q_no_amount : MultiDict :=
  [ (py "base-currency", py "GBP"); (py "to-currency", py "USD") ].
Definition q_lower : MultiDict :=
  [ (py "base-currency", py "gbp"); (py "to-currency", py "Usd") ].
Definition q_empty_amount : MultiDict :=
  [ (py "base-currency", py "GBP"); (py "to-currency", py "USD");
    (py "amount", py "") ].

Definition net_200 : Network := provider 200 (py "USD") rate_1_2.
Definition net_500 : Network := provider 500 (py "USD") rate_1_2.

(** A request with a repeated amount and a parameter the handler does
    not read. *)
Definition q_repeated : MultiDict :=
  [ (py "verbose", py "1"); (py "base-currency", py "GBP");
    (py "amount", py "123"); (py "to-currency", py "USD");
    (py "amount", py "oops") ].
Definition q_blank_amount : MultiDict :=
  [ (py "base-currency", py "GBP"); (py "to-currency", py "USD");
    (py "amount", py "   ") ].
Definition q_nan_amount : MultiDict :=
  [ (py "base-currency", py "GBP"); (py "to-currency", py "USD");
    (py "amount", py "-NaN") ].

(** A provider whose rate is a string. *)
Definition net_text : Network := provider 200 (py "USD") (PStr (py "1.2")).

Definition other_secrets : Secrets := {| CURRENCYAPI_APIKEY := py "0ther" |}.

End Samples.

(** ** Properties of the endpoint *)

Section Properties.
Context `{UnicodeData} `{PyFloat} `{Secrets}.

(** *** Strings *)

Lemma upper_nil : upper [] = [].
Proof. reflexivity. Qed.

Lemma upper_cons c s : upper (c :: s) = upper_cp c ++ upper s.
Proof. reflexivity. Qed.

Lemma upper_cp_tolower c : upper_cp (Py_TOLOWER c) = upper_cp c.
Proof.
  unfold upper_cp, Py_TOLOWER, is_ascii_upper, is_ascii_lower.
  destruct (N.leb_spec 65 c), (N.leb_spec c 90); simpl;
    repeat match goal with
           | |- context [N.leb ?a ?b] => destruct (N.leb_spec a b); simpl
           | |- context [N.ltb ?a ?b] => destruct (N.ltb_spec a b); simpl
           end;
    try lia; try reflexivity; f_equal; lia.
Qed.

Lemma upper_tolower s : upper (map Py_TOLOWER s) = upper s.
Proof.
  induction s as [|c s IH]; [reflexivity|].
  cbn [map]. rewrite !upper_cons, upper_cp_tolower, IH. reflexivity.
Qed.

Lemma case_variant_upper s t : case_variant s t -> upper s = upper t.
Proof.
  unfold case_variant. intros E.
  rewrite <- (upper_tolower s), <- (upper_tolower t), E. reflexivity.
Qed.

Lemma case_variant_valid_code s t :
  case_variant s t -> valid_code s = valid_code t.
Proof. intros E. unfold valid_code. rewrite (case_variant_upper s t E). reflexivity. Qed.

Lemma elem_of_VALID_COUNTRIES s :
  s ∈ VALID_COUNTRIES <-> s = py "USD" \/ s = py "GBP" \/ s = py "EUR".
Proof.
  unfold VALID_COUNTRIES.
  rewrite elem_of_list_to_set, !elem_of_cons, elem_of_nil. tauto.
Qed.

Lemma upper_VALID_COUNTRIES s : s ∈ VALID_COUNTRIES -> upper s = s.
Proof.
  rewrite elem_of_VALID_COUNTRIES. intros [-> | [-> | ->]]; reflexivity.
Qed.

Lemma valid_code_member s : s ∈ VALID_COUNTRIES -> valid_code s = true.
Proof.
  intros Hs. unfold valid_code. apply bool_decide_eq_true.
  rewrite (upper_VALID_COUNTRIES s Hs). exact Hs.
Qed.

Lemma valid_code_empty : valid_code [] = false.
Proof.
  unfold valid_code. apply bool_decide_eq_false. rewrite upper_nil.
  rewrite elem_of_VALID_COUNTRIES. intros [E | [E | E]]; discriminate E.
Qed.

Lemma rejected_code_invalid o :
  rejected_code o -> valid_code (default [] o) = false.
Proof.
  intros [| | s Hs]; simpl; try apply valid_code_empty.
  unfold valid_code. apply bool_decide_eq_false. exact Hs.
Qed.

(** *** Validation *)

Lemma parse_float_empty : parse_float [] = None.
Proof. reflexivity. Qed.

Lemma py_float_amount_arg args :
  py_float (amount_arg args) =
    match args_get args (py "amount") with
    | Some s =>
        match parse_float s with
        | Some l => inr (float_of_lit l)
        | None => inl ValueError
        end
    | None =>
        match float_of_int 1 with
        | Some x => inr x
        | None => inl OverflowError
        end
    end.
Proof. unfold amount_arg. destruct (args_get args (py "amount")); reflexivity. Qed.

Lemma validation_check_invalid_code b t a u :
  valid_code b = false \/ valid_code t = false ->
  validation_check b t a u = inr (Some (jsonify (currency_error u), 400)).
Proof.
  unfold validation_check, valid_code.
  intros [E | E]; rewrite E; simpl; [reflexivity|].
  rewrite orb_true_r. reflexivity.
Qed.

Lemma validation_check_valid_codes b t a u :
  valid_code b = true -> valid_code t = true ->
  validation_check b t a u =
    match py_float a with
    | inr _ => inr None
    | inl ValueError => inr (Some (jsonify (amount_error u), 400))
    | inl e => inl e
    end.
Proof.
  unfold validation_check, valid_code. intros -> ->. reflexivity.
Qed.

Lemma validation_check_response b t a u resp status :
  validation_check b t a u = inr (Some (resp, status)) ->
  (resp = jsonify (currency_error u) \/ resp = jsonify (amount_error u))
  /\ status = 400.
Proof.
  unfold validation_check.
  destruct (negb _ || negb _).
  - intros [= <- <-]. auto.
  - destruct (py_float a) as [[]|x]; intros [= <- <-] || discriminate. auto.
Qed.

Lemma validated_spec args :
  validated args = true <->
  validation_check (base_of args) (to_of args) (amount_arg args)
    (PMultiDict args) = inr None.
Proof.
  unfold validated.
  destruct (valid_code (base_of args)) eqn:Eb; simpl.
  2: { rewrite validation_check_invalid_code by (left; exact Eb).
       split; discriminate. }
  destruct (valid_code (to_of args)) eqn:Et; simpl.
  2: { rewrite validation_check_invalid_code by (right; exact Et).
       split; discriminate. }
  rewrite (validation_check_valid_codes _ _ _ _ Eb Et), py_float_amount_arg.
  destruct (args_get args (py "amount")) as [s|].
  - rewrite bool_decide_eq_true.
    destruct (parse_float s) as [l|].
    + split; [reflexivity|]. intros _. eauto.
    + split; [|discriminate]. intros [? E]. discriminate E.
  - pose proof float_of_int_one as Hone.
    destruct (float_of_int 1); [tauto | contradiction].
Qed.

(** *** Running the handler *)

Lemma run_lift {A} net (r : Exn + A) : run net (lift r) = ([], r).
Proof. destruct r; reflexivity. Qed.

Lemma run_get_conversion_rate net b t :
  run net (get_conversion_rate b t) =
    ([(endpoint, params b t)],
     match net (endpoint, params b t) with
     | inl e => inl e
     | inr r => read_rate t r
     end).
Proof.
  unfold get_conversion_rate, mbind, M_bind. cbn [bind run].
  destruct (net (endpoint, params b t)) as [e|r]; [reflexivity|].
  rewrite run_lift. reflexivity.
Qed.

Lemma run_bind {A B} net (m : M A) (f : A -> M B) :
  run net (bind m f) =
    match run net m with
    | (calls, inl e) => (calls, inl e)
    | (calls, inr a) =>
        let '(calls', out) := run net (f a) in (calls ++ calls', out)
    end.
Proof.
  induction m as [a|e|url ps k IH]; cbn [bind run].
  - destruct (run net (f a)); reflexivity.
  - reflexivity.
  - destruct (net (url, ps)) as [e|r]; [reflexivity|].
    rewrite IH. destruct (run net (k r)) as [calls [e|a]]; [reflexivity|].
    destruct (run net (f a)). reflexivity.
Qed.

(** The handler, request by request: a rejected request answers without
    calling out; a validated one calls out once and answers from the
    reply alone. *)
Lemma run_convert_currency net args :
  run net (convert_currency args) =
    match validation_check (base_of args) (to_of args) (amount_arg args)
            (PMultiDict args) with
    | inl e => ([], inl e)
    | inr (Some (resp, status)) => ([], inr (ViewTuple resp status))
    | inr None =>
        ([rate_call args],
         match net (rate_call args) with
         | inl e => inl e
         | inr r =>
             match read_rate (to_of args) r with
             | inl e => inl e
             | inr rate => respond args rate
             end
         end)
    end.
Proof.
  unfold convert_currency. fold (base_of args) (to_of args) (amount_arg args).
  unfold mbind, M_bind.
  rewrite run_bind, run_lift.
  destruct (validation_check _ _ _ _) as [e|[[resp status]|]];
    [reflexivity | reflexivity |].
  rewrite run_bind, run_get_conversion_rate. fold (rate_call args).
  destruct (net (rate_call args)) as [e|r]; [reflexivity|].
  destruct (read_rate (to_of args) r) as [e|rate]; [reflexivity|].
  unfold respond.
  destruct (truthy (args_get args (py "amount"))); [|reflexivity].
  rewrite run_bind, run_lift.
  destruct (py_float (amount_arg args)) as [e|x]; [reflexivity|].
  rewrite run_bind, run_lift.
  destruct (py_mul_float rate x) as [e|y]; reflexivity.
Qed.

(** *** The error bodies *)

Lemma dom_currency_error u :
  dom (currency_error u) = {[ py "error"; py "notes"; py "user_input" ]}.
Proof. reflexivity. Qed.

Lemma dom_amount_error u :
  dom (amount_error u) = {[ py "error"; py "notes"; py "user_input" ]}.
Proof. reflexivity. Qed.

Lemma error_messages_differ u u' :
  amount_error u !! py "error" <> currency_error u' !! py "error"
  /\ amount_error u !! py "notes" <> currency_error u' !! py "notes".
Proof.
  pose (text := fun o : option PyVal =>
                  match o with Some (PStr s) => s | _ => [] end).
  split; intros E; apply (f_equal text) in E;
    vm_compute in E; discriminate E.
Qed.

(** *** The claims *)

(** C1. A request whose base-currency or to-currency parameter is
    missing, empty, or not USD, GBP or EUR once uppercased is answered,
    without any outbound call, with status 400 and a JSON body whose
    fields are exactly error, notes and user_input; the body is the same
    currency-validation error in the three cases. *)
Theorem invalid_currency_is_rejected (args : MultiDict) (net : Network) :
  rejected_code (args_get args (py "base-currency"))
  \/ rejected_code (args_get args (py "to-currency")) ->
  run net (convert_currency args) =
    ([], inr (ViewTuple (jsonify (currency_error (PMultiDict args))) 400))
  /\ http_status (snd (run net (convert_currency args))) = 400
  /\ dom (currency_error (PMultiDict args)) =
       {[ py "error"; py "notes"; py "user_input" ]}.
Proof.
  intros Hrej.
  assert (E : run net (convert_currency args) =
    ([], inr (ViewTuple (jsonify (currency_error (PMultiDict args))) 400))).
  { rewrite run_convert_currency, validation_check_invalid_code; [reflexivity|].
    destruct Hrej as [Hr | Hr]; [left | right];
      exact (rejected_code_invalid _ Hr). }
  rewrite E. split; [reflexivity|]. split; [reflexivity|].
  apply dom_currency_error.
Qed.

(** C2. With two valid currency codes and an amount parameter that
    float() refuses, the answer is status 400 with the invalid-amount
    body: it carries user_input, and its error and notes strings are not
    those of the currency-validation error. *)
Theorem unparseable_amount_is_rejected (args : MultiDict) (net : Network)
    (s : pystr) :
  valid_code (base_of args) = true ->
  valid_code (to_of args) = true ->
  args_get args (py "amount") = Some s ->
  parse_float s = None ->
  run net (convert_currency args) =
    ([], inr (ViewTuple (jsonify (amount_error (PMultiDict args))) 400))
  /\ http_status (snd (run net (convert_currency args))) = 400
  /\ amount_error (PMultiDict args) !! py "user_input" = Some (PMultiDict args)
  /\ amount_error (PMultiDict args) !! py "error"
       <> currency_error (PMultiDict args) !! py "error"
  /\ amount_error (PMultiDict args) !! py "notes"
       <> currency_error (PMultiDict args) !! py "notes".
Proof.
  intros Hb Ht Ha Hs.
  assert (E : run net (convert_currency args) =
    ([], inr (ViewTuple (jsonify (amount_error (PMultiDict args))) 400))).
  { rewrite run_convert_currency, (validation_check_valid_codes _ _ _ _ Hb Ht).
    rewrite py_float_amount_arg, Ha, Hs. reflexivity. }
  rewrite E. split; [reflexivity|]. split; [reflexivity|].
  split; [reflexivity|]. apply error_messages_differ.
Qed.

Lemma insert_converted_amount rate u x :
  <[py "converted_amount" := x]>
    (dict [ (py "conversion_rate", rate); (py "user_input", u) ]) =
  dict [ (py "conversion_rate", rate); (py "user_input", u);
         (py "converted_amount", x) ].
Proof. reflexivity. Qed.

Lemma truthy_parsed s l : parse_float s = Some l -> truthy (Some s) = true.
Proof.
  destruct s as [|c s]; [|reflexivity].
  rewrite parse_float_empty. discriminate.
Qed.

Lemma respond_converted_amount args rate v :
  respond args rate = inr v ->
  is_Some (body v !! py "converted_amount") ->
  truthy (args_get args (py "amount")) = true.
Proof.
  unfold respond.
  destruct (truthy (args_get args (py "amount"))); [reflexivity|].
  intros [= <-] [x Hx]. discriminate Hx.
Qed.

(** C3. With two valid codes and an amount that float() accepts, once
    the provider has supplied a rate that multiplies with the amount,
    the view returns the dictionary made of conversion_rate, user_input
    and converted_amount = round(conversion_rate * amount, 2). In every
    answer that has a converted_amount field, the caller supplied a
    (non-empty) amount parameter. *)
Theorem converted_amount_when_amount_supplied :
  (forall (args : MultiDict) (net : Network) (s : pystr) (l : FloatLit)
          (r : HttpResponse) (rate : PyVal) (product : float),
      valid_code (base_of args) = true ->
      valid_code (to_of args) = true ->
      args_get args (py "amount") = Some s ->
      parse_float s = Some l ->
      net (rate_call args) = inr r ->
      read_rate (to_of args) r = inr rate ->
      py_mul_float rate (float_of_lit l) = inr product ->
      snd (run net (convert_currency args)) =
        inr (ViewDict (dict [ (py "conversion_rate", rate);
                              (py "user_input", PMultiDict args);
                              (py "converted_amount",
                               PFloat (float_round product 2)) ])))
  /\ (forall (args : MultiDict) (net : Network) (v : ViewResult),
         snd (run net (convert_currency args)) = inr v ->
         is_Some (body v !! py "converted_amount") ->
         exists s, args_get args (py "amount") = Some s /\ s <> []).
Proof.
  split.
  - intros args net s l r rate product Hb Ht Ha Hs Hnet Hrate Hmul.
    rewrite run_convert_currency, (validation_check_valid_codes _ _ _ _ Hb Ht).
    rewrite py_float_amount_arg, Ha, Hs. cbn [snd].
    rewrite Hnet, Hrate. unfold respond.
    rewrite py_float_amount_arg, Ha, Hs, (truthy_parsed s l Hs), Hmul.
    rewrite insert_converted_amount. reflexivity.
  - intros args net v Hrun Hfield.
    rewrite run_convert_currency in Hrun.
    destruct (validation_check _ _ _ _) as [e|[[resp status]|]] eqn:Ev;
      cbn [snd] in Hrun; [discriminate Hrun | |].
    + exfalso. injection Hrun as <-.
      apply validation_check_response in Ev as [[-> | ->] _];
        destruct Hfield as [x Hx]; discriminate Hx.
    + assert (Ht : truthy (args_get args (py "amount")) = true).
      { destruct (net (rate_call args)) as [e|r]; [discriminate Hrun|].
        destruct (read_rate (to_of args) r) as [e|rate]; [discriminate Hrun|].
        exact (respond_converted_amount args rate v Hrun Hfield). }
      destruct (args_get args (py "amount")) as [[|c s]|];
        [discriminate Ht | | discriminate Ht].
      exists (c :: s). split; [reflexivity | discriminate].
Qed.

Lemma respond_ok args rate :
  truthy (args_get args (py "amount")) = false ->
  respond args rate =
    inr (ViewDict (dict [ (py "conversion_rate", rate);
                          (py "user_input", PMultiDict args) ])).
Proof. unfold respond. intros ->. reflexivity. Qed.

(** C4. For base and target codes taken from USD, GBP, EUR and no
    amount parameter, once the provider has supplied the rate the view
    returns a plain dictionary (no status of its own, so the framework
    answers 200) with a conversion_rate field and no converted_amount
    field. *)
Theorem rate_only_without_amount (args : MultiDict) (net : Network)
    (b t : pystr) (r : HttpResponse) (rate : PyVal) :
  b ∈ VALID_COUNTRIES ->
  t ∈ VALID_COUNTRIES ->
  args_get args (py "base-currency") = Some b ->
  args_get args (py "to-currency") = Some t ->
  args_get args (py "amount") = None ->
  net (rate_call args) = inr r ->
  read_rate t r = inr rate ->
  exists d,
    snd (run net (convert_currency args)) = inr (ViewDict d)
    /\ custom_status (ViewDict d) = None
    /\ http_status (snd (run net (convert_currency args))) = 200
    /\ d !! py "conversion_rate" = Some rate
    /\ d !! py "converted_amount" = None.
Proof.
  intros Hb Ht Eb Et Ea Hnet Hrate.
  assert (Eb' : base_of args = b) by (unfold base_of; rewrite Eb; reflexivity).
  assert (Et' : to_of args = t) by (unfold to_of; rewrite Et; reflexivity).
  assert (E : snd (run net (convert_currency args)) =
    inr (ViewDict (dict [ (py "conversion_rate", rate);
                          (py "user_input", PMultiDict args) ]))).
  { rewrite run_convert_currency.
    rewrite validation_check_valid_codes
      by (rewrite ?Eb', ?Et'; apply valid_code_member; assumption).
    rewrite py_float_amount_arg, Ea.
    pose proof float_of_int_one as Hone.
    destruct (float_of_int 1) as [one|]; [|contradiction].
    cbn [snd]. rewrite Hnet, Et', Hrate.
    apply respond_ok. rewrite Ea. reflexivity. }
  eexists. split; [exact E|]. rewrite E.
  split; [reflexivity|]. split; [reflexivity|].
  split; reflexivity.
Qed.

Lemma read_rate_case_variant t t' r :
  case_variant t t' -> read_rate t r = read_rate t' r.
Proof. intros E. unfold read_rate. rewrite (case_variant_upper t t' E). reflexivity. Qed.

Lemma params_case_variant b b' t t' :
  case_variant b b' -> case_variant t t' -> params b t = params b' t'.
Proof.
  intros Eb Et. unfold params.
  rewrite (case_variant_upper b b' Eb), (case_variant_upper t t' Et).
  reflexivity.
Qed.

Lemma validation_check_case_variant b b' t t' a u :
  case_variant b b' -> case_variant t t' ->
  validation_check b t a u = validation_check b' t' a u.
Proof.
  intros Eb Et. unfold validation_check.
  rewrite (case_variant_upper b b' Eb), (case_variant_upper t t' Et).
  reflexivity.
Qed.

Lemma without_user_input_errors u u' :
  delete (py "user_input") (currency_error u)
    = delete (py "user_input") (currency_error u')
  /\ delete (py "user_input") (amount_error u)
    = delete (py "user_input") (amount_error u').
Proof. split; reflexivity. Qed.

Lemma without_user_input_response rate u u' :
  delete (py "user_input")
    (dict [ (py "conversion_rate", rate); (py "user_input", u) ])
  = delete (py "user_input")
    (dict [ (py "conversion_rate", rate); (py "user_input", u') ]).
Proof. reflexivity. Qed.

Lemma without_user_input_converted rate u u' x :
  delete (py "user_input")
    (<[py "converted_amount" := x]>
       (dict [ (py "conversion_rate", rate); (py "user_input", u) ]))
  = delete (py "user_input")
    (<[py "converted_amount" := x]>
       (dict [ (py "conversion_rate", rate); (py "user_input", u') ])).
Proof. reflexivity. Qed.

Lemma respond_same_amount args args' rate :
  args_get args (py "amount") = args_get args' (py "amount") ->
  outcome_without_user_input (respond args rate)
    = outcome_without_user_input (respond args' rate).
Proof.
  intros Ea. unfold respond, amount_arg. rewrite <- Ea.
  destruct (truthy (args_get args (py "amount"))).
  - destruct (py_float _) as [e|x]; [reflexivity|].
    destruct (py_mul_float rate x) as [e|y]; [reflexivity|].
    cbn [outcome_without_user_input without_user_input].
    rewrite (without_user_input_converted rate (PMultiDict args) (PMultiDict args')).
    reflexivity.
  - cbn [outcome_without_user_input without_user_input].
    rewrite (without_user_input_response rate (PMultiDict args) (PMultiDict args')).
    reflexivity.
Qed.

(** C5. Two requests whose base-currency and to-currency parameters
    differ only in letter case, with the same amount parameter, get the
    same verdict from validation_check, cause the same outbound calls
    (the codes are sent uppercased) and are answered alike once the
    user_input field is set aside. *)
Theorem currency_codes_ignore_case (args args' : MultiDict) (net : Network) :
  case_variant (base_of args) (base_of args') ->
  case_variant (to_of args) (to_of args') ->
  args_get args (py "amount") = args_get args' (py "amount") ->
  (forall u,
      validation_check (base_of args) (to_of args) (amount_arg args) u
      = validation_check (base_of args') (to_of args') (amount_arg args') u)
  /\ fst (run net (convert_currency args))
     = fst (run net (convert_currency args'))
  /\ outcome_without_user_input (snd (run net (convert_currency args)))
     = outcome_without_user_input (snd (run net (convert_currency args'))).
Proof.
  intros Eb Et Ea.
  assert (Eamt : amount_arg args = amount_arg args')
    by (unfold amount_arg; rewrite Ea; reflexivity).
  assert (Ev : forall u,
      validation_check (base_of args) (to_of args) (amount_arg args) u
      = validation_check (base_of args') (to_of args') (amount_arg args') u).
  { intros u. rewrite Eamt. apply validation_check_case_variant; assumption. }
  split; [exact Ev|].
  rewrite !run_convert_currency.
  assert (Ec : rate_call args = rate_call args').
  { unfold rate_call. rewrite (params_case_variant _ _ _ _ Eb Et). reflexivity. }
  rewrite <- Ec, <- (Ev (PMultiDict args')).
  unfold validation_check.
  destruct (negb _ || negb _).
  - cbn [fst snd outcome_without_user_input without_user_input].
    split; [reflexivity|].
    rewrite (proj1 (without_user_input_errors (PMultiDict args) (PMultiDict args'))).
    reflexivity.
  - destruct (py_float (amount_arg args)) as [e|x].
    + destruct e; cbn [fst snd outcome_without_user_input without_user_input];
        (split; [reflexivity|]);
        rewrite ?(proj2 (without_user_input_errors (PMultiDict args) (PMultiDict args')));
        reflexivity.
    + cbn [fst snd]. split; [reflexivity|].
      destruct (net (rate_call args)) as [e|r]; [reflexivity|].
      rewrite <- (read_rate_case_variant _ _ r Et).
      destruct (read_rate (to_of args) r) as [e|rate]; [reflexivity|].
      apply respond_same_amount. exact Ea.
Qed.

Lemma respond_user_input args rate v :
  respond args rate = inr v ->
  body v !! py "user_input" = Some (PMultiDict args).
Proof.
  unfold respond.
  destruct (truthy _).
  - destruct (py_float _) as [e|x]; [discriminate|].
    destruct (py_mul_float rate x) as [e|y]; [discriminate|].
    intros [= <-]. reflexivity.
  - intros [= <-]. reflexivity.
Qed.

Lemma view_user_input_is_args (args : MultiDict) (net : Network)
    (calls : list HttpCall) (v : ViewResult) :
  run net (convert_currency args) = (calls, inr v) ->
  body v !! py "user_input" = Some (PMultiDict args).
Proof.
  rewrite run_convert_currency.
  destruct (validation_check _ _ _ _) as [e|[[resp status]|]] eqn:Ev.
  - discriminate.
  - intros [= <- <-].
    apply validation_check_response in Ev as [[-> | ->] _];
      reflexivity.
  - intros [= <- Hout].
    destruct (net (rate_call args)) as [e|r]; [discriminate Hout|].
    destruct (read_rate (to_of args) r) as [e|rate]; [discriminate Hout|].
    exact (respond_user_input args rate v Hout).
Qed.

Lemma list_to_map_args_get (args : MultiDict) k :
  (list_to_map args : gmap pystr pystr) !! k = args_get args k.
Proof.
  induction args as [|[k' v] rest IH]; [reflexivity|].
  cbn [list_to_map foldr args_get uncurry fst snd].
  rewrite lookup_insert. destruct (decide (k' = k)) as [->|Hne].
  - rewrite bool_decide_eq_true_2 by reflexivity. reflexivity.
  - rewrite bool_decide_eq_false_2 by exact Hne. exact IH.
Qed.

Lemma args_get_elem_of (args : MultiDict) k v :
  args_get args k = Some v -> (k, v) ∈ args.
Proof.
  induction args as [|[k' v'] rest IH]; cbn [args_get]; [discriminate|].
  destruct (decide (k' = k)) as [->|Hne].
  - rewrite bool_decide_eq_true_2 by reflexivity.
    intros [= ->]. apply elem_of_cons. left. reflexivity.
  - rewrite bool_decide_eq_false_2 by exact Hne.
    intros Hv. apply elem_of_cons. right. exact (IH Hv).
Qed.

Lemma elem_of_args_get (args : MultiDict) k v :
  NoDup args.*1 -> (k, v) ∈ args -> args_get args k = Some v.
Proof.
  induction args as [|[k' v'] rest IH]; cbn [fmap list_fmap fst].
  - intros _ Hin. apply elem_of_nil in Hin. contradiction.
  - intros Hnd Hin. apply NoDup_cons in Hnd as [Hfresh Hnd].
    cbn [args_get]. apply elem_of_cons in Hin as [[= -> ->] | Hin].
    + rewrite bool_decide_eq_true_2 by reflexivity. reflexivity.
    + destruct (decide (k' = k)) as [->|Hne].
      * exfalso. apply Hfresh.
        apply list_elem_of_fmap. exists (k, v). split; [reflexivity | exact Hin].
      * rewrite bool_decide_eq_false_2 by exact Hne. exact (IH Hnd Hin).
Qed.

(** C6 (as the code has it). In every response, the success body and
    each of the two 400 bodies, the user_input member of the JSON
    document is an object holding each parameter name of the query once,
    with the first value the caller gave it. When no name is repeated in
    the query, that is exactly the parameters supplied, unmodified. *)
Theorem user_input_echoes_first_values (args : MultiDict) (net : Network)
    (calls : list HttpCall) (v : ViewResult) :
  run net (convert_currency args) = (calls, inr v) ->
  exists o,
    sent_body v !! py "user_input" = Some (JObject o)
    /\ (forall k, o !! k = JString <$> args_get args k)
    /\ (NoDup args.*1 -> exact_echo args o).
Proof.
  intros Hrun.
  exists (JString <$> list_to_map args).
  assert (Hget : forall k,
             (JString <$> (list_to_map args : gmap pystr pystr)) !! k
             = JString <$> args_get args k).
  { intros k. rewrite lookup_fmap, list_to_map_args_get. reflexivity. }
  split; [|split; [exact Hget|]].
  - unfold sent_body.
    rewrite lookup_fmap, (view_user_input_is_args args net calls v Hrun).
    reflexivity.
  - intros Hnd k w. rewrite Hget. split.
    + intros Hin. rewrite (elem_of_args_get args k w Hnd Hin). reflexivity.
    + destruct (args_get args k) as [w'|] eqn:Hk; [|discriminate].
      intros [= ->]. exact (args_get_elem_of args k w Hk).
Qed.

Lemma calls_of_convert_currency args net :
  fst (run net (convert_currency args)) =
    if validated args then [rate_call args] else [].
Proof.
  rewrite run_convert_currency.
  destruct (validated args) eqn:Ev.
  - apply validated_spec in Ev. rewrite Ev. reflexivity.
  - destruct (validation_check _ _ _ _) as [e|[[resp status]|]] eqn:Ec;
      [reflexivity | reflexivity |].
    apply validated_spec in Ec. congruence.
Qed.

(** C7 (as the code has it). A request makes one outbound call when
    validation_check lets it through, and none when it is rejected;
    the call is made once whatever the provider answers (nothing is
    retried), and the handler keeps nothing from one request to the
    next (its calls depend on the request alone). *)
Theorem outbound_calls_of_a_request (args : MultiDict) (net : Network) :
  fst (run net (convert_currency args)) =
    (if validated args then [rate_call args] else [])
  /\ length (fst (run net (convert_currency args))) =
       (if validated args then 1 else 0)%nat.
Proof.
  rewrite calls_of_convert_currency.
  destruct (validated args); split; reflexivity.
Qed.

Lemma read_rate_failure t out e :
  upstream_failure t out e ->
  match out with
  | inl e' => e' = e
  | inr r => read_rate t r = inl e
  end.
Proof.
  intros [e' | st | st b Hb | st b d Hb Hd | st b d c Hb Hd Hc];
    unfold read_rate, json, py_getitem; cbn [json_body];
    rewrite ?Hb, ?Hd, ?Hc; reflexivity.
Qed.

Lemma read_rate_status st st' body' t :
  read_rate t {| status_code := st; json_body := body' |}
  = read_rate t {| status_code := st'; json_body := body' |}.
Proof. reflexivity. Qed.

(** C8 (as the code has it). For a validated request, when the provider
    is unreachable, or its body is not JSON, or the body lacks data,
    data.<CODE> or data.<CODE>.value, the exception goes uncaught: the
    run ends with it after the one call, which the framework answers
    with its generic 500, never a 400 body or a 200 body. The status
    line of the provider's response plays no part in that: two responses
    with the same body are answered alike. *)
Theorem upstream_failures_are_not_caught (args : MultiDict) (net : Network) :
  validated args = true ->
  (forall e,
      upstream_failure (to_of args) (net (rate_call args)) e ->
      run net (convert_currency args) = ([rate_call args], inl e)
      /\ http_status (snd (run net (convert_currency args))) = 500)
  /\ (forall r e,
         net (rate_call args) = inr r ->
         read_rate (to_of args) r = inl e ->
         run net (convert_currency args) = ([rate_call args], inl e))
  /\ (forall (net' : Network) st st' body',
         net (rate_call args)
           = inr {| status_code := st; json_body := body' |} ->
         net' (rate_call args)
           = inr {| status_code := st'; json_body := body' |} ->
         run net (convert_currency args) = run net' (convert_currency args)).
Proof.
  intros Hv. apply validated_spec in Hv.
  assert (Hread : forall r e,
             net (rate_call args) = inr r ->
             read_rate (to_of args) r = inl e ->
             run net (convert_currency args) = ([rate_call args], inl e)).
  { intros r e Hn Hr. rewrite run_convert_currency, Hv, Hn, Hr. reflexivity. }
  split; [|split; [exact Hread|]].
  - intros e Hfail.
    assert (E : run net (convert_currency args) = ([rate_call args], inl e)).
    { apply read_rate_failure in Hfail.
      destruct (net (rate_call args)) as [e'|r] eqn:Hn.
      - rewrite run_convert_currency, Hv, Hn, Hfail. reflexivity.
      - exact (Hread r e eq_refl Hfail). }
    rewrite E. split; reflexivity.
  - intros net' st st' body' Hn Hn'.
    rewrite !run_convert_currency, Hv, Hn, Hn'.
    rewrite (read_rate_status st st'). reflexivity.
Qed.

Lemma read_rate_value t r b d c v :
  json_body r = Some (PDict b) ->
  b !! py "data" = Some (PDict d) ->
  d !! upper t = Some (PDict c) ->
  c !! py "value" = Some v ->
  read_rate t r = inr v.
Proof.
  intros Hj Hb Hd Hc. unfold read_rate, json, py_getitem.
  rewrite Hj, Hb, Hd, Hc. reflexivity.
Qed.

Lemma respond_conversion_rate args rate v :
  respond args rate = inr v ->
  body v !! py "conversion_rate" = Some rate.
Proof.
  unfold respond.
  destruct (truthy _).
  - destruct (py_float _) as [e|x]; [discriminate|].
    destruct (py_mul_float rate x) as [e|y]; [discriminate|].
    intros [= <-]. reflexivity.
  - intros [= <-]. reflexivity.
Qed.

(** C9. A validated request makes one call, a GET of the provider's
    latest-rates URL whose parameters are exactly apikey (the configured
    key), base_currency (the base code uppercased) and currencies (the
    target code uppercased); the rate that get_conversion_rate returns,
    and that the answer carries as conversion_rate, is the value found
    in the provider's body at data.<CODE>.value for that uppercased
    target code. *)
Theorem outbound_call_and_rate (args : MultiDict) (net : Network) :
  validated args = true ->
  fst (run net (convert_currency args))
    = [(py "https://api.currencyapi.com/v3/latest",
        params (base_of args) (to_of args))]
  /\ dom (params (base_of args) (to_of args))
     = {[ py "apikey"; py "base_currency"; py "currencies" ]}
  /\ param_values <$> params (base_of args) (to_of args) !! py "apikey"
     = Some [CURRENCYAPI_APIKEY]
  /\ param_values <$> params (base_of args) (to_of args) !! py "base_currency"
     = Some [upper (base_of args)]
  /\ param_values <$> params (base_of args) (to_of args) !! py "currencies"
     = Some [upper (to_of args)]
  /\ (forall r b d c v,
         net (rate_call args) = inr r ->
         json_body r = Some (PDict b) ->
         b !! py "data" = Some (PDict d) ->
         d !! upper (to_of args) = Some (PDict c) ->
         c !! py "value" = Some v ->
         run net (get_conversion_rate (base_of args) (to_of args))
           = ([rate_call args], inr v)
         /\ (forall w,
                snd (run net (convert_currency args)) = inr w ->
                body w !! py "conversion_rate" = Some v)).
Proof.
  intros Hv.
  split. { rewrite calls_of_convert_currency, Hv. reflexivity. }
  split. { reflexivity. }
  split. { reflexivity. }
  split. { reflexivity. }
  split. { reflexivity. }
  intros r b d c v Hn Hj Hb Hd Hc.
  pose proof (read_rate_value _ _ _ _ _ _ Hj Hb Hd Hc) as Hr.
  split.
  - rewrite run_get_conversion_rate. fold (rate_call args).
    rewrite Hn, Hr. reflexivity.
  - intros w. apply validated_spec in Hv.
    rewrite run_convert_currency, Hv. cbn [snd]. rewrite Hn, Hr.
    apply respond_conversion_rate.
Qed.

(** C10. With two valid codes, an amount parameter supplied as the
    empty string is answered with the 400 invalid-amount body: the empty
    string is an amount float() refuses, not a missing amount. *)
Theorem empty_amount_is_rejected (args : MultiDict) (net : Network) :
  valid_code (base_of args) = true ->
  valid_code (to_of args) = true ->
  args_get args (py "amount") = Some [] ->
  run net (convert_currency args) =
    ([], inr (ViewTuple (jsonify (amount_error (PMultiDict args))) 400))
  /\ http_status (snd (run net (convert_currency args))) = 400.
Proof.
  intros Hb Ht Ha.
  assert (E : run net (convert_currency args) =
    ([], inr (ViewTuple (jsonify (amount_error (PMultiDict args))) 400))).
  { rewrite run_convert_currency, (validation_check_valid_codes _ _ _ _ Hb Ht).
    rewrite py_float_amount_arg, Ha, parse_float_empty. reflexivity. }
  rewrite E. split; reflexivity.
Qed.
End Properties.

(** ** The program on concrete requests *)

Module Examples.
Import Samples.
#[local] Existing Instance ucd_fragment.
#[local] Existing Instance Binary64.ops.
#[local] Existing Instance sample_secrets.

Ltac by_computation := reflexivity.
Ltac member := apply (bool_decide_unpack _); vm_compute; exact I.

(** *** The built-ins on a few inputs *)

Example upper_gbp : upper (py "gbp") = py "GBP".
Proof. by_computation. Qed.

Example upper_long_s : upper [117; 383; 100]%N = py "USD".
Proof. by_computation. Qed.

Example float_123 : parse_float (py "123") = Some (LitDec false 123 0).
Proof. by_computation. Qed.

Example float_spaces_underscore_exponent :
  parse_float (py " 1_0.5e-3 ") = Some (LitDec false 105 (-4)).
Proof. by_computation. Qed.

Example float_infinity : parse_float (py "-InFiNiTy") = Some (LitInf true).
Proof. by_computation. Qed.

Example float_notanumber : parse_float (py "notanumber") = None.
Proof. by_computation. Qed.

Example float_dangling_exponent : parse_float (py "1e") = None.
Proof. by_computation. Qed.

Example float_blank : parse_float (py "  ") = None.
Proof. by_computation. Qed.

Example round_2_675 :
  float_round (float_of_decimal false 2675 (-3)) 2
  = float_of_decimal false 267 (-2).
Proof. by_computation. Qed.

Example product_147_6 :
  float_round (float_mul (float_of_decimal false 12 (-1))
                         (float_of_decimal false 123 0)) 2
  = float_of_decimal false 1476 (-1).
Proof. by_computation. Qed.

(** *** The claims on concrete requests *)

Lemma invalid_currency_is_rejected_witness :
  run net_down (convert_currency q_unsupported) =
    ([], inr (ViewTuple (jsonify (currency_error (PMultiDict q_unsupported))) 400))
  /\ http_status (snd (run net_down (convert_currency q_unsupported))) = 400
  /\ dom (currency_error (PMultiDict q_unsupported)) =
       {[ py "error"; py "notes"; py "user_input" ]}.
Proof.
  apply invalid_currency_is_rejected. left.
  apply (code_unsupported (py "XXX")). member.
Defined.

Lemma unparseable_amount_is_rejected_witness :
  run net_down (convert_currency q_bad_amount) =
    ([], inr (ViewTuple (jsonify (amount_error (PMultiDict q_bad_amount))) 400))
  /\ http_status (snd (run net_down (convert_currency q_bad_amount))) = 400
  /\ amount_error (PMultiDict q_bad_amount) !! py "user_input"
       = Some (PMultiDict q_bad_amount)
  /\ amount_error (PMultiDict q_bad_amount) !! py "error"
       <> currency_error (PMultiDict q_bad_amount) !! py "error"
  /\ amount_error (PMultiDict q_bad_amount) !! py "notes"
       <> currency_error (PMultiDict q_bad_amount) !! py "notes".
Proof.
  apply (unparseable_amount_is_rejected q_bad_amount net_down (py "notanumber"));
    by_computation.
Defined.

Lemma converted_amount_when_amount_supplied_witness :
  snd (run net_200 (convert_currency q_amount)) =
    inr (ViewDict (dict [ (py "conversion_rate", rate_1_2);
                          (py "user_input", PMultiDict q_amount);
                          (py "converted_amount",
                           PFloat (float_of_decimal false 1476 (-1))) ])).
Proof.
  refine (proj1 converted_amount_when_amount_supplied q_amount net_200
            (py "123") (LitDec false 123 0)
            {| status_code := 200; json_body := _ |} rate_1_2
            (float_of_decimal false 1476 (-1)) _ _ _ _ _ _ _);
    by_computation.
Defined.

Lemma rate_only_without_amount_witness :
  exists d,
    snd (run net_200 (convert_currency q_no_amount)) = inr (ViewDict d)
    /\ custom_status (ViewDict d) = None
    /\ http_status (snd (run net_200 (convert_currency q_no_amount))) = 200
    /\ d !! py "conversion_rate" = Some rate_1_2
    /\ d !! py "converted_amount" = None.
Proof.
  refine (rate_only_without_amount q_no_amount net_200 (py "GBP") (py "USD")
            {| status_code := 200; json_body := _ |} rate_1_2 _ _ _ _ _ _ _);
    try by_computation; member.
Defined.

Lemma currency_codes_ignore_case_witness :
  (forall u,
      validation_check (base_of q_lower) (to_of q_lower) (amount_arg q_lower) u
      = validation_check (base_of q_no_amount) (to_of q_no_amount)
          (amount_arg q_no_amount) u)
  /\ fst (run net_200 (convert_currency q_lower))
     = fst (run net_200 (convert_currency q_no_amount))
  /\ outcome_without_user_input (snd (run net_200 (convert_currency q_lower)))
     = outcome_without_user_input (snd (run net_200 (convert_currency q_no_amount))).
Proof.
  apply (currency_codes_ignore_case q_lower q_no_amount net_200);
    by_computation.
Defined.

Lemma user_input_echoes_first_values_witness :
  exists o,
    sent_body (ViewTuple (jsonify (currency_error (PMultiDict q_unsupported))) 400)
      !! py "user_input" = Some (JObject o)
    /\ (forall k, o !! k = JString <$> args_get q_unsupported k)
    /\ (NoDup q_unsupported.*1 -> exact_echo q_unsupported o).
Proof.
  apply (user_input_echoes_first_values q_unsupported net_down []).
  reflexivity.
Defined.

(** C6, as stated, fails: when a parameter is repeated, the JSON
    document sent back keeps its first value only, so a pair the caller
    supplied is missing from user_input. *)
Lemma repeated_parameter_is_not_echoed :
  exists v o,
    snd (run net_200 (convert_currency q_repeated)) = inr v
    /\ sent_body v !! py "user_input" = Some (JObject o)
    /\ (py "amount", py "oops") ∈ q_repeated
    /\ o !! py "amount" = Some (JString (py "123"))
    /\ ~ exact_echo q_repeated o.
Proof.
  eexists. exists (JString <$> list_to_map q_repeated).
  assert (Hin : (py "amount", py "oops") ∈ q_repeated).
  { unfold q_repeated. rewrite !elem_of_cons. tauto. }
  assert (Ho : (JString <$> (list_to_map q_repeated : gmap pystr pystr))
                 !! py "amount" = Some (JString (py "123")))
    by reflexivity.
  split; [reflexivity|]. split; [reflexivity|].
  split; [exact Hin|]. split; [exact Ho|].
  intros Hex. apply Hex in Hin. rewrite Ho in Hin.
  injection Hin as Hin. vm_compute in Hin. discriminate Hin.
Qed.

(** C7, as stated, fails: a request that validation rejects makes no
    outbound call at all. *)
Lemma rejected_request_makes_no_call :
  fst (run net_down (convert_currency q_unsupported)) = []
  /\ length (fst (run net_down (convert_currency q_unsupported))) <> 1%nat.
Proof. split; [reflexivity | discriminate]. Qed.

(** C8, as stated, fails: a provider response with status 500 whose
    body carries the rate is answered like any other, with the success
    dictionary and the framework's 200. *)
Lemma non_200_reply_is_answered :
  validated q_no_amount = true
  /\ (exists r, net_500 (rate_call q_no_amount) = inr r
                /\ status_code r = 500 /\ status_code r <> 200)
  /\ snd (run net_500 (convert_currency q_no_amount)) =
       inr (ViewDict (dict [ (py "conversion_rate", rate_1_2);
                             (py "user_input", PMultiDict q_no_amount) ]))
  /\ http_status (snd (run net_500 (convert_currency q_no_amount))) = 200.
Proof.
  split; [by_computation|]. split.
  - eexists. split; [reflexivity|]. split; [reflexivity | discriminate].
  - split; by_computation.
Qed.

Lemma upstream_failures_are_not_caught_witness :
  run net_down (convert_currency q_no_amount)
    = ([rate_call q_no_amount], inl RequestException)
  /\ http_status (snd (run net_down (convert_currency q_no_amount))) = 500.
Proof.
  refine (proj1 (upstream_failures_are_not_caught q_no_amount net_down _)
            RequestException _).
  - by_computation.
  - apply provider_unreachable.
Defined.

Lemma outbound_call_and_rate_witness :
  fst (run net_200 (convert_currency q_lower))
    = [(py "https://api.currencyapi.com/v3/latest",
        params (py "gbp") (py "Usd"))]
  /\ param_values <$> params (py "gbp") (py "Usd") !! py "currencies"
     = Some [py "USD"].
Proof.
  assert (Hv : validated q_lower = true) by by_computation.
  pose proof (outbound_call_and_rate q_lower net_200 Hv)
    as (Hcall & _ & _ & _ & Hcur & _).
  split; [exact Hcall | exact Hcur].
Defined.

Lemma empty_amount_is_rejected_witness :
  run net_200 (convert_currency q_empty_amount) =
    ([], inr (ViewTuple (jsonify (amount_error (PMultiDict q_empty_amount))) 400))
  /\ http_status (snd (run net_200 (convert_currency q_empty_amount))) = 400.
Proof.
  apply (empty_amount_is_rejected q_empty_amount net_200); by_computation.
Defined.
End Examples.

(** ** Further properties of the handler *)

Section FurtherProperties.
Context `{UnicodeData} `{PyFloat} `{Secrets}.

Lemma validation_check_never_raises args e :
  validation_check (base_of args) (to_of args) (amount_arg args)
    (PMultiDict args) <> inl e.
Proof.
  unfold validation_check.
  destruct (negb _ || negb _); [discriminate|].
  rewrite py_float_amount_arg.
  destruct (args_get args (py "amount")) as [s|].
  - destruct (parse_float s); discriminate.
  - pose proof float_of_int_one as Hone.
    destruct (float_of_int 1); [discriminate | contradiction].
Qed.

Lemma respond_is_dict args rate v :
  respond args rate = inr v -> exists d, v = ViewDict d.
Proof.
  unfold respond. destruct (truthy _).
  - destruct (py_float _) as [e|x]; [discriminate|].
    destruct (py_mul_float rate x) as [e|y]; [discriminate|].
    intros [= <-]. eauto.
  - intros [= <-]. eauto.
Qed.

(** X1. How an answer and the outbound calls go together, for every request
    and every provider: either the view returns a response with status
    400 and no call was made, or exactly one call was made and the view
    returns a plain dictionary or ends with an uncaught exception. The
    handler never raises before it has called out, and never returns an
    error body after. *)
Theorem answer_and_calls (args : MultiDict) (net : Network) :
  (fst (run net (convert_currency args)) = []
   /\ exists d,
        snd (run net (convert_currency args))
          = inr (ViewTuple (jsonify d) 400))
  \/ (fst (run net (convert_currency args)) = [rate_call args]
      /\ ((exists e, snd (run net (convert_currency args)) = inl e)
          \/ (exists d, snd (run net (convert_currency args))
                          = inr (ViewDict d)))).
Proof.
  rewrite run_convert_currency.
  destruct (validation_check _ _ _ _) as [e|[[resp status]|]] eqn:Ev.
  - exfalso. exact (validation_check_never_raises args e Ev).
  - left. split; [reflexivity|].
    apply validation_check_response in Ev as [[-> | ->] ->]; eauto.
  - right. split; [reflexivity|]. cbn [snd].
    destruct (net (rate_call args)) as [e|r]; [left; eauto|].
    destruct (read_rate (to_of args) r) as [e|rate]; [left; eauto|].
    destruct (respond args rate) as [e|v] eqn:Er; [left; eauto|].
    right. destruct (respond_is_dict args rate v Er) as [d ->]. eauto.
Qed.

Lemma run_same_parameters args args' net :
  base_of args = base_of args' ->
  to_of args = to_of args' ->
  args_get args (py "amount") = args_get args' (py "amount") ->
  fst (run net (convert_currency args)) = fst (run net (convert_currency args'))
  /\ outcome_without_user_input (snd (run net (convert_currency args)))
     = outcome_without_user_input (snd (run net (convert_currency args'))).
Proof.
  intros Eb Et Ea.
  assert (Eamt : amount_arg args = amount_arg args')
    by (unfold amount_arg; rewrite Ea; reflexivity).
  assert (Ec : rate_call args = rate_call args')
    by (unfold rate_call; rewrite Eb, Et; reflexivity).
  rewrite !run_convert_currency, <- Ec, <- Eb, <- Et, <- Eamt.
  unfold validation_check.
  destruct (negb _ || negb _).
  - cbn [fst snd outcome_without_user_input without_user_input].
    split; [reflexivity|].
    rewrite (proj1 (without_user_input_errors (PMultiDict args) (PMultiDict args'))).
    reflexivity.
  - destruct (py_float (amount_arg args)) as [e|x].
    + destruct e; cbn [fst snd outcome_without_user_input without_user_input];
        (split; [reflexivity|]);
        rewrite ?(proj2 (without_user_input_errors (PMultiDict args) (PMultiDict args')));
        reflexivity.
    + cbn [fst snd]. split; [reflexivity|].
      destruct (net (rate_call args)) as [e|r]; [reflexivity|].
      destruct (read_rate (to_of args) r) as [e|rate]; [reflexivity|].
      apply respond_same_amount. exact Ea.
Qed.

(** X2. Only the first base-currency, the first to-currency and the first
    amount of the query string count: two requests that agree on them
    cause the same outbound calls and get the same answer apart from the
    echoed user_input, whatever else they carry (other parameters, later
    repetitions, another order). *)
Theorem only_first_values_count (args args' : MultiDict) (net : Network) :
  args_get args (py "base-currency") = args_get args' (py "base-currency") ->
  args_get args (py "to-currency") = args_get args' (py "to-currency") ->
  args_get args (py "amount") = args_get args' (py "amount") ->
  fst (run net (convert_currency args)) = fst (run net (convert_currency args'))
  /\ outcome_without_user_input (snd (run net (convert_currency args)))
     = outcome_without_user_input (snd (run net (convert_currency args'))).
Proof.
  intros Eb Et Ea. apply run_same_parameters; [| |exact Ea].
  - unfold base_of. rewrite Eb. reflexivity.
  - unfold to_of. rewrite Et. reflexivity.
Qed.

Lemma py_mul_float_non_numeric rate x :
  non_numeric rate -> py_mul_float rate x = inl TypeError.
Proof. destruct rate; simpl; intros Hn; (reflexivity || contradiction). Qed.

Lemma validated_amount_floats args :
  validated args = true -> exists x, py_float (amount_arg args) = inr x.
Proof.
  intros Hv. apply validated_spec in Hv. unfold validation_check in Hv.
  destruct (negb _ || negb _); [discriminate Hv|].
  destruct (py_float (amount_arg args)) as [[]|x]; try discriminate Hv.
  eauto.
Qed.

(** X3. The rate is never checked to be a number. When the provider's value
    is null, a string, an array or an object, a validated request with a
    non-empty amount ends, after its one call, with an uncaught TypeError
    from the multiplication (a 500); without an amount the same reply is
    answered with the success dictionary, the value passed through as
    conversion_rate. *)
Theorem non_numeric_rate (args : MultiDict) (net : Network)
    (r : HttpResponse) (rate : PyVal) :
  validated args = true ->
  net (rate_call args) = inr r ->
  read_rate (to_of args) r = inr rate ->
  non_numeric rate ->
  run net (convert_currency args) =
    ([rate_call args],
     if truthy (args_get args (py "amount")) then inl TypeError
     else inr (ViewDict (dict [ (py "conversion_rate", rate);
                                (py "user_input", PMultiDict args) ]))).
Proof.
  intros Hv Hn Hr Hrate.
  destruct (validated_amount_floats args Hv) as [x Hx].
  apply validated_spec in Hv.
  rewrite run_convert_currency, Hv, Hn, Hr. unfold respond.
  destruct (truthy _); [|reflexivity].
  rewrite Hx, (py_mul_float_non_numeric rate x Hrate). reflexivity.
Qed.

Lemma dom_response rate u :
  dom (dict [ (py "conversion_rate", rate); (py "user_input", u) ])
  = {[ py "conversion_rate"; py "user_input" ]}.
Proof. reflexivity. Qed.

Lemma dom_response_converted rate u x :
  dom (<[py "converted_amount" := x]>
         (dict [ (py "conversion_rate", rate); (py "user_input", u) ]))
  = {[ py "conversion_rate"; py "user_input"; py "converted_amount" ]}.
Proof. reflexivity. Qed.

(** X4. The fields of a success dictionary are exactly conversion_rate and
    user_input, plus converted_amount when, and only when, the request
    has a non-empty amount parameter. *)
Theorem success_fields (args : MultiDict) (net : Network)
    (d : gmap pystr PyVal) :
  snd (run net (convert_currency args)) = inr (ViewDict d) ->
  dom d =
    if truthy (args_get args (py "amount"))
    then {[ py "conversion_rate"; py "user_input"; py "converted_amount" ]}
    else {[ py "conversion_rate"; py "user_input" ]}.
Proof.
  rewrite run_convert_currency.
  destruct (validation_check _ _ _ _) as [e|[[resp status]|]];
    cbn [snd]; [discriminate | discriminate |].
  destruct (net (rate_call args)) as [e|r]; [discriminate|].
  destruct (read_rate (to_of args) r) as [e|rate]; [discriminate|].
  unfold respond. destruct (truthy _).
  - destruct (py_float _) as [e|x]; [discriminate|].
    destruct (py_mul_float rate x) as [e|y]; [discriminate|].
    intros [= <-]. apply dom_response_converted.
  - intros [= <-]. apply dom_response.
Qed.

Lemma read_rate_inv t r rate :
  read_rate t r = inr rate ->
  exists b d entry,
    json_body r = Some (PDict b)
    /\ b !! py "data" = Some (PDict d)
    /\ d !! upper t = Some entry
    /\ py_getitem entry (py "value") = inr rate.
Proof.
  unfold read_rate, json.
  destruct (json_body r) as [[| | | | | |b|a]|]; simpl; try discriminate.
  - destruct (b !! py "data") as [[| | | | | |d|a]|] eqn:Eb; simpl;
      try discriminate.
    + destruct (d !! upper t) as [entry|] eqn:Ed; [|discriminate].
      intros Hv. exists b, d, entry. auto.
    + destruct (args_get a (upper t)); discriminate.
  - destruct (args_get a (py "data")); [|discriminate].
    simpl. discriminate.
Qed.

(** X5. A success dictionary is only ever built from a provider response
    whose body is an object with an object under data holding an entry
    for the uppercased target code, and its conversion_rate is what that
    entry gives for value: no default rate, no other source. *)
Theorem success_comes_from_the_provider (args : MultiDict) (net : Network)
    (d : gmap pystr PyVal) :
  snd (run net (convert_currency args)) = inr (ViewDict d) ->
  exists r b data entry rate,
    net (rate_call args) = inr r
    /\ json_body r = Some (PDict b)
    /\ b !! py "data" = Some (PDict data)
    /\ data !! upper (to_of args) = Some entry
    /\ py_getitem entry (py "value") = inr rate
    /\ d !! py "conversion_rate" = Some rate.
Proof.
  rewrite run_convert_currency.
  destruct (validation_check _ _ _ _) as [e|[[resp status]|]];
    cbn [snd]; [discriminate | discriminate |].
  destruct (net (rate_call args)) as [e|r] eqn:Hn; [discriminate|].
  destruct (read_rate (to_of args) r) as [e|rate] eqn:Hr; [discriminate|].
  intros Hd.
  destruct (read_rate_inv _ _ _ Hr) as (b & data & entry & Hj & Hb & Hc & Hv).
  exists r, b, data, entry, rate.
  split; [reflexivity|]. repeat (split; [assumption|]).
  exact (respond_conversion_rate args rate (ViewDict d) Hd).
Qed.

Lemma tolower_upper_cp c :
  (c < 128)%N -> map Py_TOLOWER (upper_cp c) = [Py_TOLOWER c].
Proof.
  intros Hc. unfold upper_cp.
  destruct (N.ltb_spec c 128) as [_|Hge]; [|lia].
  unfold Py_TOLOWER, is_ascii_upper, is_ascii_lower. cbn [map].
  destruct (N.leb_spec 97 c), (N.leb_spec c 122); cbn [andb];
    repeat match goal with
           | |- context [N.leb ?a ?b] => destruct (N.leb_spec a b); cbn [andb]
           end; try lia; try reflexivity; f_equal; lia.
Qed.

Lemma tolower_upper_ascii s :
  Forall (fun c => (c < 128)%N) s ->
  map Py_TOLOWER (upper s) = map Py_TOLOWER s.
Proof.
  induction 1 as [|c s Hc _ IH]; [reflexivity|].
  rewrite upper_cons, map_app, (tolower_upper_cp c Hc), IH. reflexivity.
Qed.

(** X6. Among ASCII strings, the currency codes the handler accepts are the
    case variants of USD, GBP and EUR and nothing else: no surrounding
    whitespace is trimmed, no other spelling is tolerated. *)
Theorem accepted_ascii_codes (s : pystr) :
  Forall (fun c => (c < 128)%N) s ->
  valid_code s = true <->
  exists code, code ∈ VALID_COUNTRIES /\ case_variant s code.
Proof.
  intros Hs. unfold valid_code. rewrite bool_decide_eq_true. split.
  - intros Hin. exists (upper s). split; [exact Hin|].
    unfold case_variant. symmetry. apply tolower_upper_ascii. exact Hs.
  - intros (code & Hin & Hv).
    rewrite (case_variant_upper s code Hv), (upper_VALID_COUNTRIES code Hin).
    exact Hin.
Qed.

Lemma isspace_ascii c :
  Py_ISSPACE c = true -> (c < 127)%N /\ (c =? 95)%N = false.
Proof.
  unfold Py_ISSPACE. intros Hc.
  apply orb_true_iff in Hc as [Hc | Hc].
  - apply N.eqb_eq in Hc. split; [lia | apply N.eqb_neq; lia].
  - apply andb_true_iff in Hc as [Hlo Hhi].
    apply N.leb_le in Hlo, Hhi. split; [lia | apply N.eqb_neq; lia].
Qed.

Lemma to_ascii_blank s :
  Forall (fun c => Py_ISSPACE c = true) s -> map to_ascii_cp s = s.
Proof.
  induction 1 as [|c s Hc _ IH]; [reflexivity|].
  cbn [map]. rewrite IH. f_equal. unfold to_ascii_cp.
  destruct (isspace_ascii c Hc) as [Hlt _].
  destruct (N.ltb_spec c 127); [reflexivity | lia].
Qed.

Lemma strip_underscores_blank prev s :
  (prev =? 95)%N = false ->
  Forall (fun c => Py_ISSPACE c = true) s ->
  strip_underscores prev s = Some s.
Proof.
  intros Hp Hs. revert prev Hp.
  induction Hs as [|c s Hc _ IH]; intros prev Hp; cbn [strip_underscores].
  - rewrite Hp. reflexivity.
  - destruct (isspace_ascii c Hc) as [_ Hc95].
    rewrite Hc95, Hp. cbn [andb]. rewrite (IH c Hc95). reflexivity.
Qed.

Lemma lstrip_blank s :
  Forall (fun c => Py_ISSPACE c = true) s -> lstrip s = [].
Proof.
  induction 1 as [|c s Hc _ IH]; [reflexivity|].
  cbn [lstrip]. rewrite Hc. exact IH.
Qed.

Lemma parse_float_blank s :
  Forall (fun c => Py_ISSPACE c = true) s -> parse_float s = None.
Proof.
  intros Hs. unfold parse_float.
  rewrite (to_ascii_blank s Hs), (strip_underscores_blank 0 s eq_refl Hs).
  cbn [mbind option_bind]. rewrite (lstrip_blank s Hs). reflexivity.
Qed.

(** X7. An amount made of whitespace only (spaces, tabs, line breaks), of
    any length, is refused like an unparseable one: with two valid codes
    the answer is the 400 invalid-amount body and no call is made. *)
Theorem blank_amount_is_rejected (args : MultiDict) (net : Network)
    (s : pystr) :
  valid_code (base_of args) = true ->
  valid_code (to_of args) = true ->
  args_get args (py "amount") = Some s ->
  Forall (fun c => Py_ISSPACE c = true) s ->
  run net (convert_currency args) =
    ([], inr (ViewTuple (jsonify (amount_error (PMultiDict args))) 400)).
Proof.
  intros Hb Ht Ha Hs.
  rewrite run_convert_currency, (validation_check_valid_codes _ _ _ _ Hb Ht).
  rewrite py_float_amount_arg, Ha, (parse_float_blank s Hs). reflexivity.
Qed.

Lemma tolower_inv c l :
  Py_TOLOWER c = l -> is_ascii_lower l = true -> c = l \/ c = (l - 32)%N.
Proof.
  unfold Py_TOLOWER, is_ascii_upper, is_ascii_lower. intros <-.
  destruct (N.leb_spec 65 c), (N.leb_spec c 90); cbn [andb]; intros Hl.
  - right. lia.
  - left. reflexivity.
  - left. reflexivity.
  - left. reflexivity.
Qed.

Lemma map_tolower_inv w word :
  map Py_TOLOWER w = word ->
  Forall (fun l => is_ascii_lower l = true) word ->
  Forall2 (fun c l => c = l \/ c = (l - 32)%N) w word.
Proof.
  intros <-. induction w as [|c w IH]; cbn [map]; intros Hl.
  - constructor.
  - inversion Hl as [|? ? Hc Hw]; subst. constructor.
    + apply tolower_inv; [reflexivity | exact Hc].
    + exact (IH Hw).
Qed.

Ltac spellings H :=
  repeat match type of H with
         | Forall2 _ _ (_ :: _) =>
             let Hc := fresh "Hc" in
             let Hr := fresh "Hr" in
             apply Forall2_cons_inv_r in H as (? & ? & Hc & Hr & ->);
             destruct Hc as [-> | ->]; rename Hr into H
         | Forall2 _ _ [] => apply Forall2_nil_inv_r in H as ->
         end.

Lemma parse_float_non_finite s :
  non_finite_spelling s -> is_Some (parse_float s).
Proof.
  intros (sign & word & -> & Hsign & Hword).
  assert (Hw : exists l,
             Forall2 (fun c l => c = l \/ c = (l - 32)%N) word l
             /\ (l = py "inf" \/ l = py "infinity" \/ l = py "nan")).
  { destruct Hword as [E | [E | E]];
      eexists; (split; [apply (map_tolower_inv _ _ E);
                        repeat constructor | tauto]). }
  destruct Hw as (l & Hl & Hcase).
  destruct Hcase as [-> | [-> | ->]];
    change (py "inf") with [105; 110; 102]%N in Hl;
    change (py "infinity")
      with [105; 110; 102; 105; 110; 105; 116; 121]%N in Hl;
    change (py "nan") with [110; 97; 110]%N in Hl;
    spellings Hl;
    destruct Hsign as [-> | [-> | ->]]; eexists; reflexivity.
Qed.

(** X8. No finiteness check is made on the amount: with two valid codes, an
    amount spelled inf, infinity or nan, in any letter case and with an
    optional sign, passes validation and the provider is called. *)
Theorem non_finite_amount_is_accepted (args : MultiDict) (s : pystr) :
  valid_code (base_of args) = true ->
  valid_code (to_of args) = true ->
  args_get args (py "amount") = Some s ->
  non_finite_spelling s ->
  validated args = true
  /\ forall net : Network,
       fst (run net (convert_currency args)) = [rate_call args].
Proof.
  intros Hb Ht Ha Hs.
  assert (Hv : validated args = true).
  { unfold validated. rewrite Hb, Ht, Ha. cbn [andb].
    apply bool_decide_eq_true. exact (parse_float_non_finite s Hs). }
  split; [exact Hv|]. intros net.
  rewrite calls_of_convert_currency, Hv. reflexivity.
Qed.

(** X10. The two error bodies tell their cause. An answer with a status of
    its own is the currency error exactly when a code is rejected, and
    otherwise it is the amount error, which only a request with two valid
    codes and a supplied amount that float() refuses can get: a bad code
    always wins over a bad amount, and a request without amount never
    gets the amount error. *)
Theorem error_body_tells_the_cause (args : MultiDict) (net : Network)
    (resp : Response) (status : Z) :
  snd (run net (convert_currency args)) = inr (ViewTuple resp status) ->
  status = 400
  /\ ((resp = jsonify (currency_error (PMultiDict args))
       /\ (valid_code (base_of args) = false
           \/ valid_code (to_of args) = false))
      \/ (resp = jsonify (amount_error (PMultiDict args))
          /\ valid_code (base_of args) = true
          /\ valid_code (to_of args) = true
          /\ exists s, args_get args (py "amount") = Some s
                       /\ parse_float s = None)).
Proof.
  rewrite run_convert_currency.
  destruct (validation_check _ _ _ _) as [e|[[resp' status']|]] eqn:Ev;
    cbn [snd].
  - discriminate.
  - intros [= <- <-].
    destruct (valid_code (base_of args)) eqn:Hb.
    2: { rewrite validation_check_invalid_code in Ev by (left; exact Hb).
         injection Ev as <- <-. split; [reflexivity|]. left. auto. }
    destruct (valid_code (to_of args)) eqn:Ht.
    2: { rewrite validation_check_invalid_code in Ev by (right; exact Ht).
         injection Ev as <- <-. split; [reflexivity|]. left. auto. }
    rewrite (validation_check_valid_codes _ _ _ _ Hb Ht) in Ev.
    rewrite py_float_amount_arg in Ev.
    destruct (args_get args (py "amount")) as [s|].
    + destruct (parse_float s) eqn:Hs; [discriminate Ev|].
      injection Ev as <- <-. split; [reflexivity|]. right.
      repeat (split; [reflexivity|]). exists s. auto.
    + destruct (float_of_int 1); discriminate Ev.
  - destruct (net (rate_call args)) as [e|r]; [discriminate|].
    destruct (read_rate (to_of args) r) as [e|rate]; [discriminate|].
    intros Hr. destruct (respond_is_dict args rate _ Hr) as [d Hd].
    discriminate Hd.
Qed.
End FurtherProperties.

Section KeyUse.
Context `{UnicodeData} `{PyFloat}.
Variables S1 S2 : Secrets.

(** X9. No answer the view returns carries the API key: under two
    different keys, a request to which the provider responds alike (the
    same response, or a failed call either way) gets the same view
    result, be it a 400 body or a success dictionary. *)
Theorem api_key_not_in_the_answer (args : MultiDict) (net1 net2 : Network) :
  match net1 (rate_call (H1 := S1) args), net2 (rate_call (H1 := S2) args) with
  | inr r1, inr r2 => r1 = r2
  | inl _, inl _ => True
  | _, _ => False
  end ->
  forall v : ViewResult,
    snd (run net1 (convert_currency (H1 := S1) args)) = inr v
    <-> snd (run net2 (convert_currency (H1 := S2) args)) = inr v.
Proof.
  intros Hnet v. rewrite !run_convert_currency.
  destruct (validation_check _ _ _ _) as [e|[[resp status]|]];
    [reflexivity | reflexivity |].
  cbn [snd].
  destruct (net1 _) as [e1|r1], (net2 _) as [e2|r2]; try contradiction.
  - split; discriminate.
  - subst r2. reflexivity.
Qed.
End KeyUse.

Module FurtherExamples.
Import Samples.
#[local] Existing Instance ucd_fragment.
#[local] Existing Instance Binary64.ops.
#[local] Existing Instance sample_secrets.

Lemma only_first_values_count_witness :
  fst (run net_200 (convert_currency q_repeated))
    = fst (run net_200 (convert_currency q_amount))
  /\ outcome_without_user_input (snd (run net_200 (convert_currency q_repeated)))
     = outcome_without_user_input (snd (run net_200 (convert_currency q_amount))).
Proof.
  apply (only_first_values_count q_repeated q_amount net_200); reflexivity.
Defined.

Lemma non_numeric_rate_witness :
  run net_text (convert_currency q_amount)
    = ([rate_call q_amount], inl TypeError).
Proof.
  refine (non_numeric_rate q_amount net_text
            {| status_code := 200; json_body := _ |} (PStr (py "1.2"))
            _ _ _ _);
    [reflexivity | reflexivity | reflexivity | exact I].
Defined.

Lemma success_fields_witness :
  dom (dict [ (py "conversion_rate", rate_1_2);
              (py "user_input", PMultiDict q_amount);
              (py "converted_amount",
               PFloat (float_of_decimal false 1476 (-1))) ])
  = {[ py "conversion_rate"; py "user_input"; py "converted_amount" ]}.
Proof.
  apply (success_fields q_amount net_200). reflexivity.
Defined.

Lemma success_comes_from_the_provider_witness :
  exists r b data entry rate,
    net_200 (rate_call q_no_amount) = inr r
    /\ json_body r = Some (PDict b)
    /\ b !! py "data" = Some (PDict data)
    /\ data !! upper (to_of q_no_amount) = Some entry
    /\ py_getitem entry (py "value") = inr rate
    /\ dict [ (py "conversion_rate", rate_1_2);
              (py "user_input", PMultiDict q_no_amount) ]
         !! py "conversion_rate" = Some rate.
Proof.
  apply (success_comes_from_the_provider q_no_amount net_200). reflexivity.
Defined.

Lemma accepted_ascii_codes_witness :
  valid_code (py "gBp") = true <->
  exists code, code ∈ VALID_COUNTRIES /\ case_variant (py "gBp") code.
Proof.
  apply (accepted_ascii_codes (py "gBp")).
  apply (bool_decide_unpack _). vm_compute. exact I.
Defined.

Lemma blank_amount_is_rejected_witness :
  run net_200 (convert_currency q_blank_amount) =
    ([], inr (ViewTuple (jsonify (amount_error (PMultiDict q_blank_amount))) 400)).
Proof.
  apply (blank_amount_is_rejected q_blank_amount net_200 (py "   "));
    try reflexivity.
  apply (bool_decide_unpack _). vm_compute. exact I.
Defined.

Lemma non_finite_amount_is_accepted_witness :
  validated q_nan_amount = true
  /\ forall net : Network,
       fst (run net (convert_currency q_nan_amount)) = [rate_call q_nan_amount].
Proof.
  apply (non_finite_amount_is_accepted q_nan_amount (py "-NaN"));
    try reflexivity.
  exists (py "-"), (py "NaN").
  split; [reflexivity|]. split; [right; right; reflexivity|].
  right; right; reflexivity.
Defined.

Lemma error_body_tells_the_cause_witness :
  400 = 400
  /\ ((jsonify (amount_error (PMultiDict q_bad_amount))
        = jsonify (currency_error (PMultiDict q_bad_amount))
       /\ (valid_code (base_of q_bad_amount) = false
           \/ valid_code (to_of q_bad_amount) = false))
      \/ (jsonify (amount_error (PMultiDict q_bad_amount))
          = jsonify (amount_error (PMultiDict q_bad_amount))
          /\ valid_code (base_of q_bad_amount) = true
          /\ valid_code (to_of q_bad_amount) = true
          /\ exists s, args_get q_bad_amount (py "amount") = Some s
                       /\ parse_float s = None)).
Proof.
  apply (error_body_tells_the_cause q_bad_amount net_down). reflexivity.
Defined.

Lemma api_key_not_in_the_answer_witness :
  snd (run net_200 (convert_currency (H1 := sample_secrets) q_no_amount))
    = inr (ViewDict (dict [ (py "conversion_rate", rate_1_2);
                            (py "user_input", PMultiDict q_no_amount) ]))
  <-> snd (run net_200 (convert_currency (H1 := other_secrets) q_no_amount))
    = inr (ViewDict (dict [ (py "conversion_rate", rate_1_2);
                            (py "user_input", PMultiDict q_no_amount) ])).
Proof.
  apply (api_key_not_in_the_answer sample_secrets other_secrets q_no_amount
           net_200 net_200).
  reflexivity.
Defined.
End FurtherExamples.
